(** * Learner actions: the frontend model of [learner-action.model.ts]

    The file embeds [core/templates/domain/statistics/learner-action.model.ts]:
    the class [LearnerActionBase] with its constructor and [toBackendDict],
    the three factory methods of [LearnerActionModel] and
    [LearnerActionModel.createFromBackendDict].

    The code builds JavaScript objects and stores references to the objects it
    is handed, so the embedding is over an explicit store: a value is a
    primitive or a reference, an object is a class together with its own
    properties in insertion order, and every method is a computation over the
    store that may throw. *)

From Stdlib Require Import PrimFloat Uint63 ZArith.
From stdpp Require Import base option list relations strings pretty.

(** ** Values, objects and the store *)

Definition loc := nat.

(** A JavaScript value; a [number] is an IEEE 754 binary64. *)
Inductive value : Type :=
| VUndefined
| VNull
| VBool (b : bool)
| VNum (n : float)
| VStr (s : string)
| VRef (l : loc).

(** The classes an object of this file can be an instance of: an object
    literal is an [Object], [new C(...)] gives an instance of [C]. *)
Inductive class : Type :=
| Object
| ExplorationStartLearnerAction
| AnswerSubmitLearnerAction
| ExplorationQuitLearnerAction.

(** An object: its class and its own properties, in insertion order. *)
Record object : Type := { cls : class; props : list (string * value) }.

Abbreviation heap := (list object).

(** [o[k]] on the own properties; a missing property reads [undefined]. *)
Fixpoint assoc (k : string) (ps : list (string * value)) : option value :=
  match ps with
  | [] => None
  | (k', v) :: ps' => if String.eqb k' k then Some v else assoc k ps'
  end.

Definition get_field (ps : list (string * value)) (k : string) : value :=
  default VUndefined (assoc k ps).

(** [o[k] = v] on the own properties: an existing property keeps its place,
    a new one goes last. *)
Fixpoint set_field (k : string) (v : value) (ps : list (string * value))
  : list (string * value) :=
  match ps with
  | [] => [(k, v)]
  | (k', v') :: ps' =>
      if String.eqb k' k then (k', v) :: ps' else (k', v') :: set_field k v ps'
  end.

(** The strict equality [===] that a [switch] compares with. *)
Definition strict_equals (a b : value) : bool :=
  match a, b with
  | VUndefined, VUndefined => true
  | VNull, VNull => true
  | VBool x, VBool y => Bool.eqb x y
  | VNum x, VNum y => PrimFloat.eqb x y
  | VStr x, VStr y => String.eqb x y
  | VRef x, VRef y => Nat.eqb x y
  | _, _ => false
  end.

(** ** Computations: store passing with exceptions *)

Inductive exn : Type :=
| TypeError (msg : string)
| Error (msg : string).

Inductive result (A : Type) : Type :=
| Ok (a : A)
| Throw (e : exn).
Arguments Ok {A} a.
Arguments Throw {A} e.

(** A computation runs in a store and gives a result or a thrown exception,
    and the store it leaves. *)
Definition M (A : Type) : Type := heap -> result A * heap.

#[global] Instance M_ret : MRet M := fun A a h => (Ok a, h).

#[global] Instance M_bind : MBind M := fun A B f m h =>
  match m h with
  | (Ok a, h') => f a h'
  | (Throw e, h') => (Throw e, h')
  end.

Definition throw {A : Type} (e : exn) : M A := fun h => (Throw e, h).

(** Lifting of a function that only reads the store. *)
Definition reading {A : Type} (f : heap -> result A) : M A :=
  fun h => (f h, h).

(** Allocation of a new object: the next free location. *)
Definition alloc (o : object) : M value :=
  fun h => (Ok (VRef (length h)), h ++ [o]).

(** Property read [v.k]. Reading a property of [undefined] or [null] throws
    a [TypeError]; a primitive has none of the properties this file reads;
    a reference reads the own property of its object. *)
Definition get (v : value) (k : string) : M value :=
  fun h =>
    match v with
    | VUndefined | VNull =>
        (Throw (TypeError ("Cannot read properties of undefined or null: " +:+ k)), h)
    | VRef l =>
        match h !! l with
        | Some o => (Ok (get_field (props o) k), h)
        | None => (Throw (TypeError ("Invalid reference: " +:+ k)), h)
        end
    | _ => (Ok VUndefined, h)
    end.

(** Property write [v.k = x], in place. *)
Definition set (v : value) (k : string) (x : value) : M unit :=
  fun h =>
    match v with
    | VUndefined | VNull =>
        (Throw (TypeError ("Cannot set properties of undefined or null: " +:+ k)), h)
    | VRef l =>
        match h !! l with
        | Some o =>
            (Ok tt, <[l := {| cls := cls o; props := set_field k x (props o) |}]> h)
        | None => (Throw (TypeError ("Invalid reference: " +:+ k)), h)
        end
    | _ => (Ok tt, h)
    end.

(** ** The declared types

    The interfaces of the source are shapes of objects in the store. A shape
    lists required properties with the type of each; as in TypeScript, an
    object with more properties still has the shape. *)

Definition is_string (v : value) : bool :=
  match v with VStr _ => true | _ => false end.

Definition is_number (v : value) : bool :=
  match v with VNum _ => true | _ => false end.

Definition vtype : Type := heap -> value -> bool.

Definition field_ok (h : heap) (o : object) (f : string * vtype) : bool :=
  match assoc f.1 (props o) with
  | Some x => f.2 h x
  | None => false
  end.

Definition interface (fs : list (string * vtype)) : vtype :=
  fun h v =>
    match v with
    | VRef l =>
        match h !! l with
        | Some o => forallb (field_ok h o) fs
        | None => false
        end
    | _ => false
    end.

(** [{value: T}] for a primitive type [T]. *)
Definition wrapped (T : value -> bool) : vtype :=
  interface [("value", fun _ => T)].

Definition ExplorationStartCustomizationArgs : vtype :=
  interface [("state_name", wrapped is_string)].

Definition AnswerSubmitCustomizationArgs : vtype :=
  interface [("state_name", wrapped is_string);
             ("dest_state_name", wrapped is_string);
             ("interaction_id", wrapped is_string);
             ("submitted_answer", wrapped is_string);
             ("feedback", wrapped is_string);
             ("time_spent_state_in_msecs", wrapped is_number)].

Definition ExplorationQuitCustomizationArgs : vtype :=
  interface [("state_name", wrapped is_string);
             ("time_spent_in_state_in_msecs", wrapped is_number)].

Inductive LearnerActionType : Type :=
| ExplorationStart
| AnswerSubmit
| ExplorationQuit.

(** The string each member of the enum stands for. *)
Definition enum_value (K : LearnerActionType) : string :=
  match K with
  | ExplorationStart => "ExplorationStart"
  | AnswerSubmit => "AnswerSubmit"
  | ExplorationQuit => "ExplorationQuit"
  end.

Definition ActionCustomizationArgs (K : LearnerActionType) : vtype :=
  match K with
  | ExplorationStart => ExplorationStartCustomizationArgs
  | AnswerSubmit => AnswerSubmitCustomizationArgs
  | ExplorationQuit => ExplorationQuitCustomizationArgs
  end.

Definition is_enum (K : LearnerActionType) : vtype :=
  fun _ v => strict_equals v (VStr (enum_value K)).

Definition LearnerActionBackendDictBase (K : LearnerActionType) : vtype :=
  interface [("action_type", is_enum K);
             ("action_customization_args", ActionCustomizationArgs K);
             ("schema_version", fun _ => is_number)].

Definition LearnerActionBackendDict : vtype :=
  fun h v =>
    LearnerActionBackendDictBase ExplorationStart h v
    || LearnerActionBackendDictBase AnswerSubmit h v
    || LearnerActionBackendDictBase ExplorationQuit h v.

(** The subclass of [LearnerActionBase] for each action type. *)
Definition class_of (K : LearnerActionType) : class :=
  match K with
  | ExplorationStart => ExplorationStartLearnerAction
  | AnswerSubmit => AnswerSubmitLearnerAction
  | ExplorationQuit => ExplorationQuitLearnerAction
  end.

Definition class_eqb (c d : class) : bool :=
  match c, d with
  | Object, Object
  | ExplorationStartLearnerAction, ExplorationStartLearnerAction
  | AnswerSubmitLearnerAction, AnswerSubmitLearnerAction
  | ExplorationQuitLearnerAction, ExplorationQuitLearnerAction => true
  | _, _ => false
  end.

Definition instance_of (c : class) : vtype :=
  fun h v =>
    match v with
    | VRef l =>
        match h !! l with
        | Some o => class_eqb (cls o) c
        | None => false
        end
    | _ => false
    end.

(** An instance of the class for [K] with the fields of
    [LearnerActionBase<K>]. *)
Definition LearnerActionOf (K : LearnerActionType) : vtype :=
  fun h v =>
    instance_of (class_of K) h v
    && interface [("actionType", is_enum K);
                  ("actionCustomizationArgs", ActionCustomizationArgs K);
                  ("schemaVersion", fun _ => is_number)] h v.

Definition LearnerAction : vtype :=
  fun h v =>
    LearnerActionOf ExplorationStart h v
    || LearnerActionOf AnswerSubmit h v
    || LearnerActionOf ExplorationQuit h v.

(** The modifiers of the constructor's parameter properties:
    [public readonly actionType], [public actionCustomizationArgs],
    [public schemaVersion]. *)
Inductive modifier : Type := Readonly | Writable.

Definition LearnerActionBase_fields : list (string * modifier) :=
  [("actionType", Readonly);
   ("actionCustomizationArgs", Writable);
   ("schemaVersion", Writable)].

Fixpoint modifier_of (k : string) (fs : list (string * modifier))
  : option modifier :=
  match fs with
  | [] => None
  | (k', m) :: fs' => if String.eqb k' k then Some m else modifier_of k fs'
  end.

(** An assignment [a.k = x] to a field of an action type-checks when the
    field is declared and not [readonly]. *)
Definition assignable (k : string) : bool :=
  match modifier_of k LearnerActionBase_fields with
  | Some Writable => true
  | _ => false
  end.

(** ** The collaborators of the module *)

(** [StatisticsDomainConstants], of [statistics-domain.constants]: the
    constant the factory methods read. *)
Class StatisticsDomainConstants : Type :=
  { LEARNER_ACTION_SCHEMA_LATEST_VERSION : float }.

(** [angular.toJson] on a defined value: the JSON text of the value as the
    store has it, or the exception the serializer throws. *)
Class Angular : Type :=
  { toJson : heap -> value -> result string }.

(** ** The classes *)

Module LearnerActionBase.

(** [new C(actionType, actionCustomizationArgs, schemaVersion)] for a
    subclass [C]: the constructor's parameter properties, in order. *)
Definition new (C : class)
    (actionType actionCustomizationArgs schemaVersion : value) : M value :=
  alloc {| cls := C;
           props := [("actionType", actionType);
                     ("actionCustomizationArgs", actionCustomizationArgs);
                     ("schemaVersion", schemaVersion)] |}.

Definition toBackendDict (this : value) : M value :=
  action_type ← get this "actionType";
  action_customization_args ← get this "actionCustomizationArgs";
  schema_version ← get this "schemaVersion";
  alloc {| cls := Object;
           props := [("action_type", action_type);
                     ("action_customization_args", action_customization_args);
                     ("schema_version", schema_version)] |}.

End LearnerActionBase.

Module LearnerActionModel.
Import LearnerActionBase.

Section Statics.
Context {constants : StatisticsDomainConstants} {angular : Angular}.

Definition createNewExplorationStartAction
    (actionCustomizationArgs : value) : M value :=
  new ExplorationStartLearnerAction
    (VStr (enum_value ExplorationStart)) actionCustomizationArgs
    (VNum LEARNER_ACTION_SCHEMA_LATEST_VERSION).

Definition createNewAnswerSubmitAction
    (actionCustomizationArgs : value) : M value :=
  new AnswerSubmitLearnerAction
    (VStr (enum_value AnswerSubmit)) actionCustomizationArgs
    (VNum LEARNER_ACTION_SCHEMA_LATEST_VERSION).

Definition createNewExplorationQuitAction
    (actionCustomizationArgs : value) : M value :=
  new ExplorationQuitLearnerAction
    (VStr (enum_value ExplorationQuit)) actionCustomizationArgs
    (VNum LEARNER_ACTION_SCHEMA_LATEST_VERSION).

(** The constructor call shared by the three [case] branches. *)
Definition fromDict (C : class) (learnerActionBackendDict : value)
  : M value :=
  action_type ← get learnerActionBackendDict "action_type";
  action_customization_args ←
    get learnerActionBackendDict "action_customization_args";
  schema_version ← get learnerActionBackendDict "schema_version";
  new C action_type action_customization_args schema_version.

Definition createFromBackendDict (learnerActionBackendDict : value)
  : M value :=
  discriminant ← get learnerActionBackendDict "action_type";
  if strict_equals discriminant (VStr (enum_value ExplorationStart)) then
    fromDict ExplorationStartLearnerAction learnerActionBackendDict
  else if strict_equals discriminant (VStr (enum_value AnswerSubmit)) then
    fromDict AnswerSubmitLearnerAction learnerActionBackendDict
  else if strict_equals discriminant (VStr (enum_value ExplorationQuit)) then
    fromDict ExplorationQuitLearnerAction learnerActionBackendDict
  else
    json ← reading (fun h => toJson h learnerActionBackendDict);
    throw (Error
             ("Backend dict does not match any known action type: "
              +:+ json)).

End Statics.
End LearnerActionModel.

(** ** Instances and stores for the examples *)

(** The constant as [statistics-domain.constants] may publish it, at two
    different values. *)
Definition constants_v1 : StatisticsDomainConstants :=
  {| LEARNER_ACTION_SCHEMA_LATEST_VERSION := 1%float |}.

Definition constants_v5 : StatisticsDomainConstants :=
  {| LEARNER_ACTION_SCHEMA_LATEST_VERSION := 5%float |}.

(** A serializer in the manner of [JSON.stringify]: it covers strings,
    booleans, [null], whole numbers below 2^53 and objects of these; the
    fuel is the number of objects of the store, so that running out of it
    means a cycle. Numbers with a fraction and larger ones are outside what
    it prints. *)
Definition dquote : string := String (Ascii.ascii_of_nat 34) EmptyString.

Definition hex_digit (n : nat) : Ascii.ascii :=
  Ascii.ascii_of_nat (if n <? 10 then 48 + n else 87 + n).

Definition escape_char (c : Ascii.ascii) : string :=
  let n := Ascii.nat_of_ascii c in
  if n =? 34 then "\" +:+ dquote
  else if n =? 92 then "\\"
  else if n =? 8 then "\b"
  else if n =? 9 then "\t"
  else if n =? 10 then "\n"
  else if n =? 12 then "\f"
  else if n =? 13 then "\r"
  else if n <? 32 then
    "\u00" +:+ String (hex_digit (n / 16)) (String (hex_digit (n mod 16)) EmptyString)
  else String c EmptyString.

Fixpoint escape (s : string) : string :=
  match s with
  | EmptyString => EmptyString
  | String c s' => escape_char c +:+ escape s'
  end.

Definition quote (s : string) : string := dquote +:+ escape s +:+ dquote.

(** The whole number a float is, when it is one of magnitude below 2^53. *)
Definition integer_of (f : float) : option Z :=
  if PrimFloat.is_zero f then Some 0%Z
  else if PrimFloat.ltb (PrimFloat.abs f) 9007199254740992%float then
    let '(m, e) := PrimFloat.frshiftexp (PrimFloat.abs f) in
    let mant := Uint63.to_Z (PrimFloat.normfr_mantissa m) in
    let k := (2101 + 53 - Uint63.to_Z e)%Z in
    if (mant mod 2 ^ k =? 0)%Z then
      Some (if PrimFloat.ltb f 0 then - (mant / 2 ^ k) else mant / 2 ^ k)%Z
    else None
  else None.

Definition stringify_number (f : float) : result string :=
  if PrimFloat.is_nan f || PrimFloat.is_infinity f then Ok "null"
  else match integer_of f with
       | Some z => Ok (pretty z)
       | None => Throw (Error "number outside the printed range")
       end.

(** [angular.toJson] leaves out the properties whose name starts with two
    dollar signs, [JSON.stringify] those whose value is [undefined]. *)
Definition skipped (k : string) (x : value) : bool :=
  String.prefix "$$" k || strict_equals x VUndefined.

Definition join_members (ms : list string) : string :=
  "{" +:+ String.concat "," ms +:+ "}".

Fixpoint stringify (fuel : nat) (h : heap) (v : value) : result string :=
  match v with
  | VUndefined => Ok "undefined"
  | VNull => Ok "null"
  | VBool b => Ok (if b then "true" else "false")
  | VNum f => stringify_number f
  | VStr s => Ok (quote s)
  | VRef l =>
      match fuel with
      | 0 => Throw (TypeError "Converting circular structure to JSON")
      | S fuel' =>
          match h !! l with
          | None => Throw (TypeError "Invalid reference")
          | Some o =>
              let members :=
                fix members (ps : list (string * value)) : result (list string) :=
                  match ps with
                  | [] => Ok []
                  | (k, x) :: ps' =>
                      if skipped k x then members ps'
                      else
                        match stringify fuel' h x with
                        | Throw e => Throw e
                        | Ok s =>
                            match members ps' with
                            | Throw e => Throw e
                            | Ok ss => Ok ((quote k +:+ ":" +:+ s) :: ss)
                            end
                        end
                  end in
              match members (props o) with
              | Throw e => Throw e
              | Ok ms => Ok (join_members ms)
              end
          end
      end
  end.

Definition sample_angular : Angular :=
  {| toJson := fun h v => stringify (length h) h v |}.

Definition literal (ps : list (string * value)) : object :=
  {| cls := Object; props := ps |}.

(** [{state_name: {value: "Introduction"}}], at location 1. *)
Definition start_store : heap :=
  [literal [("value", VStr "Introduction")];
   literal [("state_name", VRef 0)]].

Definition start_payload : value := VRef 1.

(** The wire dictionary of an answer submission, at location 7, with its
    customization args at location 6. *)
Definition answer_store : heap :=
  [literal [("value", VStr "S1")];
   literal [("value", VStr "S2")];
   literal [("value", VStr "TextInput")];
   literal [("value", VStr "42")];
   literal [("value", VStr "Good")];
   literal [("value", VNum 1500%float)];
   literal [("state_name", VRef 0);
            ("dest_state_name", VRef 1);
            ("interaction_id", VRef 2);
            ("submitted_answer", VRef 3);
            ("feedback", VRef 4);
            ("time_spent_state_in_msecs", VRef 5)];
   literal [("action_type", VStr "AnswerSubmit");
            ("action_customization_args", VRef 6);
            ("schema_version", VNum 3%float)]].

Definition answer_dict : value := VRef 7.

(** A dictionary of an unknown action type, at location 1. *)
Definition bogus_store : heap :=
  [literal [];
   literal [("action_type", VStr "Bogus");
            ("action_customization_args", VRef 0);
            ("schema_version", VNum 1%float)]].

Definition bogus_dict : value := VRef 1.

(** A dictionary of a known action type with no customization args and a
    negative schema version, at location 0. *)
Definition bare_store : heap :=
  [literal [("action_type", VStr "ExplorationQuit");
            ("schema_version", VNum (-1)%float)]].

Definition bare_dict : value := VRef 0.

(** [start_store] after [createNewExplorationStartAction(start_payload)]
    under [constants_v1]: the action is at location 2. *)
Definition started_store : heap :=
  start_store ++
  [{| cls := ExplorationStartLearnerAction;
      props := [("actionType", VStr "ExplorationStart");
                ("actionCustomizationArgs", VRef 1);
                ("schemaVersion", VNum 1%float)] |}].

Definition started_action : value := VRef 2.

(** The JSON text of [bogus_dict]. *)
Definition bogus_json : string :=
  "{" +:+ quote "action_type" +:+ ":" +:+ quote "Bogus" +:+ ","
  +:+ quote "action_customization_args" +:+ ":{},"
  +:+ quote "schema_version" +:+ ":1}".

(** ** Vocabulary of the statements *)

(** The factory method for each action type. *)
Definition createNew {constants : StatisticsDomainConstants}
    (K : LearnerActionType) : value -> M value :=
  match K with
  | ExplorationStart => LearnerActionModel.createNewExplorationStartAction
  | AnswerSubmit => LearnerActionModel.createNewAnswerSubmitAction
  | ExplorationQuit => LearnerActionModel.createNewExplorationQuitAction
  end.

(** [v.k] evaluates to [x] in [h]. *)
Definition reads (h : heap) (v : value) (k : string) (x : value) : Prop :=
  get v k h = (Ok x, h).

(** Every object of [h] is in [h'], at its location and as it was. *)
Definition preserved (h h' : heap) : Prop :=
  forall (l : loc) (o : object), h !! l = Some o -> h' !! l = Some o.

(** A type whose members stay members when the store grows. *)
Definition stable (T : vtype) : Prop :=
  forall (h : heap) (o : object) (v : value),
    T h v = true -> T (h ++ [o]) v = true.

(** The message of the error of [createFromBackendDict]. *)
Definition unknown_type_message (json : string) : string :=
  "Backend dict does not match any known action type: " +:+ json.

(** The object a constructor call builds. *)
Definition action_object (C : class) (t args version : value) : object :=
  {| cls := C;
     props := [("actionType", t);
               ("actionCustomizationArgs", args);
               ("schemaVersion", version)] |}.

(** The object literal [toBackendDict] returns. *)
Definition dict_object (t args version : value) : object :=
  literal [("action_type", t);
           ("action_customization_args", args);
           ("schema_version", version)].

(** A computation that, when it throws, leaves the store as it found it,
    and, when it returns, has added its result to the store as one new
    object and nothing else, and run again gives a new object with the same
    content. *)
Definition repeatable (c : M value) : Prop :=
  forall h : heap,
    match c h with
    | (Throw _, h1) => h1 = h
    | (Ok v, h1) =>
        exists o : object,
          v = VRef (length h) /\ h1 = h ++ [o] /\
          c h1 = (Ok (VRef (length h1)), h1 ++ [o])
    end.

(** Every instance of an action class carries the tag of its class. *)
Definition tag_consistent (h : heap) : Prop :=
  forall (l : loc) (o : object) (K : LearnerActionType),
    h !! l = Some o ->
    cls o = class_of K ->
    get_field (props o) "actionType" = VStr (enum_value K).

(** What a caller may do to the store with an action at [a] in hand:
    assign a field of the action that is not [readonly], or write to any
    other object, the payload among them. *)
Inductive caller_write (a : loc) (h : heap) : heap -> Prop :=
| write_field (k : string) (x : value) (h' : heap) :
    assignable k = true ->
    set (VRef a) k x h = (Ok tt, h') ->
    caller_write a h h'
| write_elsewhere (l : loc) (k : string) (x : value) (h' : heap) :
    l <> a ->
    set (VRef l) k x h = (Ok tt, h') ->
    caller_write a h h'.

(** * Properties *)

Section Properties.
Import LearnerActionBase LearnerActionModel.
Context {constants : StatisticsDomainConstants} {angular : Angular}.

(** ** Running computations *)

Lemma bind_ok {A B : Type} (m : M A) (f : A -> M B) h a h' :
  m h = (Ok a, h') -> (m ≫= f) h = f a h'.
Proof. intros E. unfold mbind, M_bind. now rewrite E. Qed.

Lemma bind_throw {A B : Type} (m : M A) (f : A -> M B) h e h' :
  m h = (Throw e, h') -> (m ≫= f) h = (Throw e, h').
Proof. intros E. unfold mbind, M_bind. now rewrite E. Qed.

Lemma get_ref h l o k :
  h !! l = Some o -> get (VRef l) k h = (Ok (get_field (props o) k), h).
Proof. intros E. unfold get. now rewrite E. Qed.

Lemma reads_ref h l o k :
  h !! l = Some o -> reads h (VRef l) k (get_field (props o) k).
Proof. apply get_ref. Qed.

Lemma lookup_alloc (h : heap) (o : object) : (h ++ [o]) !! length h = Some o.
Proof. rewrite lookup_app_r by lia. now rewrite Nat.sub_diag. Qed.

Lemma preserved_alloc (h : heap) (o : object) : preserved h (h ++ [o]).
Proof. intros l o' E. now apply lookup_app_l_Some. Qed.

Lemma preserved_trans (h1 h2 h3 : heap) :
  preserved h1 h2 -> preserved h2 h3 -> preserved h1 h3.
Proof. unfold preserved. auto. Qed.

Lemma new_alloc C t args version h :
  new C t args version h
  = (Ok (VRef (length h)), h ++ [action_object C t args version]).
Proof. reflexivity. Qed.

Lemma createNew_alloc K P h :
  createNew K P h
  = (Ok (VRef (length h)),
     h ++ [action_object (class_of K) (VStr (enum_value K)) P
             (VNum LEARNER_ACTION_SCHEMA_LATEST_VERSION)]).
Proof. destruct K; reflexivity. Qed.

Lemma toBackendDict_ref h l o :
  h !! l = Some o ->
  toBackendDict (VRef l) h
  = (Ok (VRef (length h)),
     h ++ [dict_object (get_field (props o) "actionType")
             (get_field (props o) "actionCustomizationArgs")
             (get_field (props o) "schemaVersion")]).
Proof.
  intros E. unfold toBackendDict.
  repeat (erewrite bind_ok by (apply get_ref; exact E)).
  reflexivity.
Qed.

Lemma fromDict_ref C h l o :
  h !! l = Some o ->
  fromDict C (VRef l) h
  = (Ok (VRef (length h)),
     h ++ [action_object C (get_field (props o) "action_type")
             (get_field (props o) "action_customization_args")
             (get_field (props o) "schema_version")]).
Proof.
  intros E. unfold fromDict.
  repeat (erewrite bind_ok by (apply get_ref; exact E)).
  reflexivity.
Qed.

(** ** The [switch] *)

Lemma strict_equals_str t s :
  strict_equals t (VStr s) = true <-> t = VStr s.
Proof.
  destruct t; simpl; try (split; [discriminate | congruence]).
  rewrite String.eqb_eq. split; congruence.
Qed.

Lemma strict_equals_enum_false t K :
  t <> VStr (enum_value K) -> strict_equals t (VStr (enum_value K)) = false.
Proof.
  intros N. destruct (strict_equals t (VStr (enum_value K))) eqn:E; [|done].
  apply strict_equals_str in E. contradiction.
Qed.

Lemma createFromBackendDict_known K h l o :
  h !! l = Some o ->
  get_field (props o) "action_type" = VStr (enum_value K) ->
  createFromBackendDict (VRef l) h
  = (Ok (VRef (length h)),
     h ++ [action_object (class_of K) (VStr (enum_value K))
             (get_field (props o) "action_customization_args")
             (get_field (props o) "schema_version")]).
Proof.
  intros E T. unfold createFromBackendDict.
  erewrite bind_ok by (apply get_ref; exact E).
  rewrite T. destruct K; simpl;
    erewrite fromDict_ref by exact E; rewrite T; reflexivity.
Qed.

Lemma createFromBackendDict_default d h t :
  get d "action_type" h = (Ok t, h) ->
  (forall K, t <> VStr (enum_value K)) ->
  createFromBackendDict d h
  = match toJson h d with
    | Ok json => (Throw (Error (unknown_type_message json)), h)
    | Throw e => (Throw e, h)
    end.
Proof.
  intros E N. unfold createFromBackendDict.
  erewrite bind_ok by exact E.
  rewrite !strict_equals_enum_false by apply N.
  unfold mbind, M_bind, reading, throw.
  destruct (toJson h d); reflexivity.
Qed.

(** ** The declared types and the growth of the store *)

Lemma field_ok_get h o k T :
  field_ok h o (k, T) = true -> T h (get_field (props o) k) = true.
Proof.
  unfold field_ok, get_field. simpl. now destruct (assoc k (props o)).
Qed.

Lemma interface_ref fs h l o :
  h !! l = Some o -> interface fs h (VRef l) = forallb (field_ok h o) fs.
Proof. intros E. unfold interface. now rewrite E. Qed.

Lemma interface_inv fs h v :
  interface fs h v = true ->
  exists l o, v = VRef l /\ h !! l = Some o /\ forallb (field_ok h o) fs = true.
Proof.
  unfold interface. destruct v as [| | | | |l]; try discriminate.
  destruct (h !! l) as [o|] eqn:E; [|discriminate]. eauto.
Qed.

Lemma interface_stable fs :
  Forall (fun f => stable f.2) fs -> stable (interface fs).
Proof.
  intros S h o v I.
  destruct (interface_inv _ _ _ I) as (l & o' & -> & E & F).
  rewrite (interface_ref _ _ _ o') by now apply lookup_app_l_Some.
  rewrite forallb_forall in *. intros f In.
  rewrite Forall_forall in S. specialize (F f In).
  apply list_elem_of_In in In. specialize (S f In).
  unfold field_ok in *. destruct (assoc f.1 (props o')); [|done].
  now apply S.
Qed.

Lemma stable_const (T : value -> bool) : stable (fun _ => T).
Proof. intros h o v E. exact E. Qed.

Lemma wrapped_stable T : stable (wrapped T).
Proof. apply interface_stable. repeat constructor. apply stable_const. Qed.

Lemma is_enum_stable K : stable (is_enum K).
Proof. intros h o v E. exact E. Qed.

Lemma ActionCustomizationArgs_stable K : stable (ActionCustomizationArgs K).
Proof.
  destruct K; apply interface_stable; repeat constructor;
    apply wrapped_stable.
Qed.

Lemma LearnerActionBackendDictBase_stable K :
  stable (LearnerActionBackendDictBase K).
Proof.
  apply interface_stable. repeat constructor; simpl.
  - apply is_enum_stable.
  - apply ActionCustomizationArgs_stable.
  - apply stable_const.
Qed.

Lemma LearnerActionBackendDictBase_inv K h d :
  LearnerActionBackendDictBase K h d = true ->
  exists l o,
    d = VRef l /\ h !! l = Some o /\
    get_field (props o) "action_type" = VStr (enum_value K) /\
    ActionCustomizationArgs K h
      (get_field (props o) "action_customization_args") = true /\
    is_number (get_field (props o) "schema_version") = true.
Proof.
  intros I. destruct (interface_inv _ _ _ I) as (l & o & -> & E & F).
  exists l, o. simpl in F. rewrite !andb_true_iff in F.
  destruct F as (F1 & F2 & F3 & _).
  apply field_ok_get in F1, F2, F3.
  repeat split; try done. now apply strict_equals_str.
Qed.

Lemma LearnerActionBackendDict_inv h d :
  LearnerActionBackendDict h d = true ->
  exists K, LearnerActionBackendDictBase K h d = true.
Proof.
  unfold LearnerActionBackendDict. rewrite !orb_true_iff.
  intros [[I|I]|I]; eauto.
Qed.

Lemma LearnerActionOf_inv K h a :
  LearnerActionOf K h a = true ->
  exists l o,
    a = VRef l /\ h !! l = Some o /\ cls o = class_of K /\
    get_field (props o) "actionType" = VStr (enum_value K) /\
    ActionCustomizationArgs K h
      (get_field (props o) "actionCustomizationArgs") = true /\
    is_number (get_field (props o) "schemaVersion") = true.
Proof.
  unfold LearnerActionOf. rewrite andb_true_iff. intros [C I].
  destruct (interface_inv _ _ _ I) as (l & o & -> & E & F).
  exists l, o. simpl in F. rewrite !andb_true_iff in F.
  destruct F as (F1 & F2 & F3 & _).
  apply field_ok_get in F1, F2, F3.
  unfold instance_of in C. rewrite E in C.
  repeat split; try done.
  - destruct (cls o), K; simpl in C; done.
  - now apply strict_equals_str.
Qed.

Lemma LearnerAction_inv h a :
  LearnerAction h a = true -> exists K, LearnerActionOf K h a = true.
Proof.
  unfold LearnerAction. rewrite !orb_true_iff. intros [[I|I]|I]; eauto.
Qed.

Lemma class_eqb_refl c : class_eqb c c = true.
Proof. now destruct c. Qed.

(** A new action object built from well-typed parts is a well-typed action. *)
Lemma action_object_typed K h args version :
  ActionCustomizationArgs K h args = true ->
  is_number version = true ->
  LearnerActionOf K
    (h ++ [action_object (class_of K) (VStr (enum_value K)) args version])
    (VRef (length h)) = true.
Proof.
  intros A V. unfold LearnerActionOf, instance_of.
  erewrite interface_ref by apply lookup_alloc.
  rewrite lookup_alloc. simpl. rewrite class_eqb_refl. simpl.
  unfold field_ok. simpl. unfold is_enum. simpl.
  rewrite String.eqb_refl, V.
  rewrite (ActionCustomizationArgs_stable K _ _ _ A). reflexivity.
Qed.

(** A new dictionary built from well-typed parts is a well-typed dictionary. *)
Lemma dict_object_typed K h args version :
  ActionCustomizationArgs K h args = true ->
  is_number version = true ->
  LearnerActionBackendDictBase K
    (h ++ [dict_object (VStr (enum_value K)) args version])
    (VRef (length h)) = true.
Proof.
  intros A V. unfold LearnerActionBackendDictBase.
  erewrite interface_ref by apply lookup_alloc.
  simpl. unfold field_ok. simpl. unfold is_enum. simpl.
  rewrite String.eqb_refl, V.
  rewrite (ActionCustomizationArgs_stable K _ _ _ A). reflexivity.
Qed.

(** ** The factory methods *)

(** C3. Whatever the action type and the payload (any value, the
    structurally valid ones among them), the factory method returns a new
    action whose [schemaVersion] reads
    [StatisticsDomainConstants.LEARNER_ACTION_SCHEMA_LATEST_VERSION]. *)
Theorem factory_stamps_latest_version
    (K : LearnerActionType) (P : value) (h : heap) :
  exists (a : value) (h' : heap),
    createNew K P h = (Ok a, h') /\
    reads h' a "schemaVersion" (VNum LEARNER_ACTION_SCHEMA_LATEST_VERSION).
Proof.
  exists (VRef (length h)). eexists. split; [apply createNew_alloc|].
  unfold reads. erewrite get_ref by apply lookup_alloc. reflexivity.
Qed.

(** ** Encoding and decoding *)

(** C1. Encoding a freshly created action and decoding the dictionary
    gives a second action object with the class, the tag, the payload (the
    very value the factory was given) and the schema version of the first;
    the objects of the initial store are as they were. *)
Theorem round_trip (K : LearnerActionType) (P : value) (h : heap) :
  exists (la la' : loc) (o : object) (h1 h3 : heap),
    createNew K P h = (Ok (VRef la), h1) /\
    (a ← createNew K P;
     d ← toBackendDict a;
     a' ← createFromBackendDict d;
     mret (a, a')) h = (Ok (VRef la, VRef la'), h3) /\
    h1 !! la = Some o /\ h3 !! la = Some o /\ h3 !! la' = Some o /\
    o = action_object (class_of K) (VStr (enum_value K)) P
          (VNum LEARNER_ACTION_SCHEMA_LATEST_VERSION) /\
    preserved h h3.
Proof.
  set (o := action_object (class_of K) (VStr (enum_value K)) P
              (VNum LEARNER_ACTION_SCHEMA_LATEST_VERSION)).
  set (h1 := h ++ [o]).
  set (dict := dict_object (VStr (enum_value K)) P
                 (VNum LEARNER_ACTION_SCHEMA_LATEST_VERSION)).
  set (h2 := h1 ++ [dict]).
  assert (E1 : createNew K P h = (Ok (VRef (length h)), h1))
    by apply createNew_alloc.
  assert (E2 : toBackendDict (VRef (length h)) h1 = (Ok (VRef (length h1)), h2))
    by (erewrite toBackendDict_ref by apply lookup_alloc; reflexivity).
  assert (E3 : createFromBackendDict (VRef (length h1)) h2
               = (Ok (VRef (length h2)), h2 ++ [o]))
    by (erewrite (createFromBackendDict_known K) by
          (try apply lookup_alloc; reflexivity); reflexivity).
  exists (length h), (length h2), o, h1, (h2 ++ [o]).
  repeat split.
  - exact E1.
  - erewrite bind_ok by exact E1. erewrite bind_ok by exact E2.
    erewrite bind_ok by exact E3. reflexivity.
  - apply lookup_alloc.
  - do 2 apply preserved_alloc. apply lookup_alloc.
  - apply lookup_alloc.
  - do 3 (eapply preserved_trans; [|apply preserved_alloc]).
    intros l x; auto.
Qed.

(** C6. A well-formed dictionary of action type [K] is decoded to a new
    instance of the class for [K] whose [actionType] is [K] and which is a
    well-typed action of that type. *)
Theorem decode_dispatches_on_kind
    (K : LearnerActionType) (h : heap) (d : value) :
  LearnerActionBackendDictBase K h d = true ->
  exists (a : value) (h' : heap),
    createFromBackendDict d h = (Ok a, h') /\
    instance_of (class_of K) h' a = true /\
    reads h' a "actionType" (VStr (enum_value K)) /\
    LearnerActionOf K h' a = true.
Proof.
  intros W.
  destruct (LearnerActionBackendDictBase_inv _ _ _ W)
    as (l & o & -> & E & T & A & V).
  exists (VRef (length h)). eexists.
  split; [apply (createFromBackendDict_known K); eassumption|].
  pose proof (action_object_typed K h _ _ A V) as Ty.
  repeat split.
  - unfold LearnerActionOf in Ty. now apply andb_true_iff in Ty as [? _].
  - unfold reads. erewrite get_ref by apply lookup_alloc. reflexivity.
  - exact Ty.
Qed.

(** C4. A well-formed dictionary of a known action type is decoded to an
    action whose [schemaVersion] is the dictionary's [schema_version];
    [createFromBackendDict] does not read [StatisticsDomainConstants]. *)
Theorem decode_preserves_schema_version (h : heap) (d : value) :
  LearnerActionBackendDict h d = true ->
  exists (a : value) (h' : heap) (version : value),
    createFromBackendDict d h = (Ok a, h') /\
    reads h d "schema_version" version /\
    reads h' a "schemaVersion" version.
Proof.
  intros W. destruct (LearnerActionBackendDict_inv _ _ W) as (K & WK).
  destruct (LearnerActionBackendDictBase_inv _ _ _ WK)
    as (l & o & -> & E & T & _ & _).
  exists (VRef (length h)). eexists.
  exists (get_field (props o) "schema_version").
  split; [apply (createFromBackendDict_known K); eassumption|].
  split; [now apply reads_ref|].
  unfold reads. erewrite get_ref by apply lookup_alloc. reflexivity.
Qed.

(** C10. Only [action_type] is inspected: a dictionary whose
    [action_type] is a known type is decoded, whatever its other
    properties, to a new instance of the class for that type carrying the
    dictionary's [action_customization_args] and [schema_version] as they
    read, [undefined] when the property is missing. *)
Theorem decode_checks_only_action_type
    (K : LearnerActionType) (h : heap) (l : loc) (o : object) :
  h !! l = Some o ->
  get_field (props o) "action_type" = VStr (enum_value K) ->
  createFromBackendDict (VRef l) h
  = (Ok (VRef (length h)),
     h ++ [action_object (class_of K) (VStr (enum_value K))
             (get_field (props o) "action_customization_args")
             (get_field (props o) "schema_version")]).
Proof. apply createFromBackendDict_known. Qed.

(** C2. A dictionary whose [action_type] is none of the three known types
    is never decoded: [createFromBackendDict] throws and leaves the store
    as it was, and the error it throws carries the serialized form of the
    dictionary, whenever [angular.toJson] gives one. *)
Theorem decode_rejects_unknown_kind (h : heap) (l : loc) (o : object) :
  h !! l = Some o ->
  (forall K, get_field (props o) "action_type" <> VStr (enum_value K)) ->
  (exists e, createFromBackendDict (VRef l) h = (Throw e, h)) /\
  (forall json,
      toJson h (VRef l) = Ok json ->
      createFromBackendDict (VRef l) h
      = (Throw (Error (unknown_type_message json)), h)).
Proof.
  intros E N.
  pose proof (createFromBackendDict_default (VRef l) h _ (get_ref _ _ _ _ E) N)
    as D.
  split.
  - rewrite D. destruct (toJson h (VRef l)); eauto.
  - intros json J. now rewrite D, J.
Qed.

(** C7. [toBackendDict] succeeds on every action: it returns a new object
    literal with exactly the properties [action_type],
    [action_customization_args] and [schema_version], which are the
    action's tag, payload and schema version; the payload has every field
    in the form [{value: ...}], and the result is a well-formed dictionary
    of the action's type. *)
Theorem toBackendDict_total (h : heap) (a : value) :
  LearnerAction h a = true ->
  exists (K : LearnerActionType) (args version : value) (h' : heap),
    reads h a "actionType" (VStr (enum_value K)) /\
    reads h a "actionCustomizationArgs" args /\
    reads h a "schemaVersion" version /\
    h' = h ++ [dict_object (VStr (enum_value K)) args version] /\
    toBackendDict a h = (Ok (VRef (length h)), h') /\
    ActionCustomizationArgs K h' args = true /\
    LearnerActionBackendDictBase K h' (VRef (length h)) = true.
Proof.
  intros W. destruct (LearnerAction_inv _ _ W) as (K & WK).
  destruct (LearnerActionOf_inv _ _ _ WK) as (l & o & -> & E & _ & T & A & V).
  exists K, (get_field (props o) "actionCustomizationArgs"),
    (get_field (props o) "schemaVersion").
  eexists. repeat split.
  - rewrite <- T. now apply reads_ref.
  - now apply reads_ref.
  - now apply reads_ref.
  - rewrite (toBackendDict_ref _ _ _ E), T. reflexivity.
  - now apply ActionCustomizationArgs_stable.
  - now apply dict_object_typed.
Qed.

(** C5, as the code has it. Neither direction adds or removes a
    [{value: ...}] wrapper: [toBackendDict] puts the very payload of the
    action under [action_customization_args], [createFromBackendDict] makes
    the very [action_customization_args] of the dictionary the payload of
    the action, and neither changes an object of the store. The wrapper is
    part of the payload in memory: a payload of the declared type, every
    field of which is a [{value: ...}] object, is what the factory method
    stores. *)
Theorem codec_passes_payload_through :
  (forall (h : heap) (l : loc) (o : object),
      h !! l = Some o ->
      exists (d : value) (h' : heap),
        toBackendDict (VRef l) h = (Ok d, h') /\
        reads h' d "action_customization_args"
          (get_field (props o) "actionCustomizationArgs") /\
        preserved h h') /\
  (forall (K : LearnerActionType) (h : heap) (l : loc) (o : object),
      h !! l = Some o ->
      get_field (props o) "action_type" = VStr (enum_value K) ->
      exists (a : value) (h' : heap),
        createFromBackendDict (VRef l) h = (Ok a, h') /\
        reads h' a "actionCustomizationArgs"
          (get_field (props o) "action_customization_args") /\
        preserved h h') /\
  (forall (K : LearnerActionType) (P : value) (h : heap),
      ActionCustomizationArgs K h P = true ->
      exists (a : value) (h' : heap),
        createNew K P h = (Ok a, h') /\
        reads h' a "actionCustomizationArgs" P /\
        ActionCustomizationArgs K h' P = true).
Proof.
  split; [|split].
  - intros h l o E. do 2 eexists.
    split; [apply toBackendDict_ref; exact E|].
    split; [|apply preserved_alloc].
    unfold reads. erewrite get_ref by apply lookup_alloc. reflexivity.
  - intros K h l o E T. do 2 eexists.
    split; [exact (createFromBackendDict_known K h l o E T)|].
    split; [|apply preserved_alloc].
    unfold reads. erewrite get_ref by apply lookup_alloc. reflexivity.
  - intros K P h A. do 2 eexists.
    split; [apply createNew_alloc|].
    split; [|now apply ActionCustomizationArgs_stable].
    unfold reads. erewrite get_ref by apply lookup_alloc. reflexivity.
Qed.

(** ** Writes by the caller *)

Lemma assoc_set_field_eq k v ps : assoc k (set_field k v ps) = Some v.
Proof.
  induction ps as [|[k' v'] ps IH]; simpl.
  - now rewrite String.eqb_refl.
  - destruct (String.eqb k' k) eqn:E; simpl; now rewrite E.
Qed.

Lemma assoc_set_field_ne k k' v ps :
  k <> k' -> assoc k' (set_field k v ps) = assoc k' ps.
Proof.
  intros N. induction ps as [|[k0 v0] ps IH]; simpl.
  - destruct (String.eqb k k') eqn:E; [|done].
    apply String.eqb_eq in E. contradiction.
  - destruct (String.eqb k0 k) eqn:E; simpl.
    + apply String.eqb_eq in E. subst k0.
      destruct (String.eqb k k') eqn:E'; [|done].
      apply String.eqb_eq in E'. contradiction.
    + now rewrite IH.
Qed.

Lemma set_ref h l o k x :
  h !! l = Some o ->
  set (VRef l) k x h
  = (Ok tt, <[l := {| cls := cls o; props := set_field k x (props o) |}]> h).
Proof. intros E. unfold set. now rewrite E. Qed.

Lemma set_ref_inv h l k x h' :
  set (VRef l) k x h = (Ok tt, h') ->
  exists o,
    h !! l = Some o /\
    h' = <[l := {| cls := cls o; props := set_field k x (props o) |}]> h.
Proof.
  unfold set. destruct (h !! l) as [o|] eqn:E; [|discriminate].
  intros [= <-]. eauto.
Qed.

Lemma assignable_not_actionType k : assignable k = true -> k <> "actionType".
Proof. intros A ->. discriminate. Qed.

Lemma caller_write_keeps_tag a h h' o :
  caller_write a h h' ->
  h !! a = Some o ->
  exists o',
    h' !! a = Some o' /\ cls o' = cls o /\
    get_field (props o') "actionType" = get_field (props o) "actionType".
Proof.
  intros [k x h1 A S | l k x h1 N S] E.
  - destruct (set_ref_inv _ _ _ _ _ S) as (o0 & E0 & ->).
    assert (o0 = o) as -> by congruence.
    eexists. split; [|split].
    + apply list_lookup_insert_eq. now apply lookup_lt_Some in E.
    + reflexivity.
    + unfold get_field. simpl.
      now rewrite assoc_set_field_ne by now apply assignable_not_actionType.
  - destruct (set_ref_inv _ _ _ _ _ S) as (o0 & E0 & ->).
    exists o. now rewrite list_lookup_insert_ne.
Qed.

(** C8, as the code has it. Of the three fields only [actionType] is
    [readonly]: through any sequence of writes by the caller the action
    keeps its class and its tag; [actionCustomizationArgs] and
    [schemaVersion] can both be assigned any value; and the content of the
    payload can be changed in place with the action object itself, and its
    reference to the payload, untouched. *)
Theorem only_actionType_is_readonly :
  (forall (a : loc) (h h' : heap) (o : object),
      rtc (caller_write a) h h' ->
      h !! a = Some o ->
      exists o',
        h' !! a = Some o' /\ cls o' = cls o /\
        get_field (props o') "actionType" = get_field (props o) "actionType") /\
  (forall (a : loc) (h : heap) (o : object) (k : string) (x : value),
      h !! a = Some o ->
      k = "actionCustomizationArgs" \/ k = "schemaVersion" ->
      exists h', caller_write a h h' /\ reads h' (VRef a) k x) /\
  (forall (a p : loc) (h : heap) (o op : object) (k : string) (x : value),
      h !! a = Some o ->
      get_field (props o) "actionCustomizationArgs" = VRef p ->
      p <> a ->
      h !! p = Some op ->
      exists h',
        caller_write a h h' /\ h' !! a = Some o /\
        (p' ← get (VRef a) "actionCustomizationArgs"; get p' k) h'
        = (Ok x, h')).
Proof.
  split; [|split].
  - intros a h h' o R. revert o.
    induction R as [h | h h1 h' W R IH]; intros o E; [eauto|].
    destruct (caller_write_keeps_tag _ _ _ _ W E) as (o1 & E1 & C1 & T1).
    destruct (IH _ E1) as (o' & E' & C' & T').
    exists o'. repeat split; congruence.
  - intros a h o k x E K. eexists. split.
    + apply (write_field a h k x); [destruct K; now subst|].
      exact (set_ref h a o k x E).
    + unfold reads. erewrite get_ref
        by (apply list_lookup_insert_eq; now apply lookup_lt_Some in E).
      unfold get_field. simpl. now rewrite assoc_set_field_eq.
  - intros a p h o op k x E P N Ep. eexists. split; [|split].
    + apply (write_elsewhere a h p k x); [exact N|].
      exact (set_ref h p op k x Ep).
    + rewrite list_lookup_insert_ne by exact N. exact E.
    + erewrite bind_ok
        by (apply get_ref; rewrite list_lookup_insert_ne by exact N; exact E).
      rewrite P. erewrite get_ref
        by (apply list_lookup_insert_eq; now apply lookup_lt_Some in Ep).
      unfold get_field. simpl. now rewrite assoc_set_field_eq.
Qed.

(** ** Purity *)

Lemma known_or_unknown (t : value) :
  (exists K, t = VStr (enum_value K)) \/ (forall K, t <> VStr (enum_value K)).
Proof.
  destruct (strict_equals t (VStr (enum_value ExplorationStart))) eqn:E1;
    [apply strict_equals_str in E1; eauto|].
  destruct (strict_equals t (VStr (enum_value AnswerSubmit))) eqn:E2;
    [apply strict_equals_str in E2; eauto|].
  destruct (strict_equals t (VStr (enum_value ExplorationQuit))) eqn:E3;
    [apply strict_equals_str in E3; eauto|].
  right. intros K T. apply strict_equals_str in T. destruct K; congruence.
Qed.

Lemma createNew_repeatable K P : repeatable (createNew K P).
Proof.
  intros h. rewrite createNew_alloc. eexists. repeat split.
  apply createNew_alloc.
Qed.

Lemma toBackendDict_repeatable this : repeatable (toBackendDict this).
Proof.
  intros h. destruct this as [| | b | n | s | l];
    try reflexivity;
    try (eexists; repeat split; reflexivity).
  destruct (h !! l) as [o|] eqn:E.
  - rewrite (toBackendDict_ref _ _ _ E). eexists. repeat split.
    apply toBackendDict_ref. now apply lookup_app_l_Some.
  - unfold toBackendDict. erewrite bind_throw; [reflexivity|].
    unfold get. now rewrite E.
Qed.

Lemma createFromBackendDict_repeatable d :
  repeatable (createFromBackendDict d).
Proof.
  intros h.
  assert (D : forall t,
             get d "action_type" h = (Ok t, h) ->
             (forall K, t <> VStr (enum_value K)) ->
             match createFromBackendDict d h with
             | (Throw _, h1) => h1 = h
             | (Ok v, h1) =>
                 exists o, v = VRef (length h) /\ h1 = h ++ [o] /\
                   createFromBackendDict d h1
                   = (Ok (VRef (length h1)), h1 ++ [o])
             end).
  { intros t G N. rewrite (createFromBackendDict_default _ _ _ G N).
    now destruct (toJson h d). }
  destruct d as [| | b | n | s | l];
    try reflexivity;
    try (apply (D VUndefined); [reflexivity | intros K; discriminate]).
  destruct (h !! l) as [o|] eqn:E.
  - destruct (known_or_unknown (get_field (props o) "action_type"))
      as [[K T] | N].
    + rewrite (createFromBackendDict_known K _ _ _ E T).
      eexists. repeat split.
      apply (createFromBackendDict_known K); [|exact T].
      now apply lookup_app_l_Some.
    + apply (D _ (get_ref _ _ _ _ E) N).
  - unfold createFromBackendDict. erewrite bind_throw; [reflexivity|].
    unfold get. now rewrite E.
Qed.

(** [createFromBackendDict] returns only on an object whose [action_type]
    is one of the three known types. *)
Lemma createFromBackendDict_returns_inv d h a h' :
  createFromBackendDict d h = (Ok a, h') ->
  exists l o K,
    d = VRef l /\ h !! l = Some o /\
    get_field (props o) "action_type" = VStr (enum_value K).
Proof.
  assert (D : forall t,
             get d "action_type" h = (Ok t, h) ->
             (forall K, t <> VStr (enum_value K)) ->
             createFromBackendDict d h <> (Ok a, h')).
  { intros t G N. rewrite (createFromBackendDict_default _ _ _ G N).
    now destruct (toJson h d). }
  intros R. destruct d as [| | b | n | s | l];
    try discriminate;
    try (exfalso; apply (D VUndefined); [reflexivity | discriminate | exact R]).
  destruct (h !! l) as [o|] eqn:E.
  - destruct (known_or_unknown (get_field (props o) "action_type"))
      as [[K T] | N]; [eauto 6|].
    exfalso. exact (D _ (get_ref _ _ _ _ E) N R).
  - exfalso. revert R. unfold createFromBackendDict.
    erewrite bind_throw; [discriminate|]. unfold get. now rewrite E.
Qed.

(** C9. The factory methods, [toBackendDict] and [createFromBackendDict]
    are functions of their argument, the store and (for the factory
    methods) the constant. A call that throws leaves the store as it was; a
    call that returns has added the returned object to the store and
    changed nothing else; and the same call made again succeeds or fails
    alike, with an object of the same content. *)
Theorem operations_are_pure :
  (forall K P, repeatable (createNew K P)) /\
  (forall this, repeatable (toBackendDict this)) /\
  (forall d, repeatable (createFromBackendDict d)).
Proof.
  split; [|split].
  - apply createNew_repeatable.
  - apply toBackendDict_repeatable.
  - apply createFromBackendDict_repeatable.
Qed.

End Properties.

(** * The statements at concrete stores *)

Import LearnerActionBase LearnerActionModel.

Example started_store_is_created :
  createNewExplorationStartAction (constants := constants_v1)
    start_payload start_store
  = (Ok started_action, started_store).
Proof. reflexivity. Qed.

(** A dictionary of schema version 3 decoded next to an action created
    while the latest schema version is 5. *)
Example old_version_next_to_new :
  (fresh ← createNew (constants := constants_v5) AnswerSubmit (VRef 6);
   decoded ← createFromBackendDict (angular := sample_angular) answer_dict;
   v1 ← get fresh "schemaVersion";
   v2 ← get decoded "schemaVersion";
   mret (v1, v2)) answer_store
  = (Ok (VNum 5%float, VNum 3%float),
     answer_store ++
     [action_object AnswerSubmitLearnerAction (VStr "AnswerSubmit") (VRef 6)
        (VNum 5%float);
      action_object AnswerSubmitLearnerAction (VStr "AnswerSubmit") (VRef 6)
        (VNum 3%float)]).
Proof. reflexivity. Qed.

Example bogus_json_is_serialized :
  toJson (Angular := sample_angular) bogus_store bogus_dict = Ok bogus_json.
Proof. vm_compute. reflexivity. Qed.

(** C6 at the dictionary of an answer submission. *)
Lemma decode_dispatches_on_kind_witness :
  LearnerActionBackendDictBase AnswerSubmit answer_store answer_dict = true /\
  exists (a : value) (h' : heap),
    createFromBackendDict (angular := sample_angular) answer_dict answer_store
    = (Ok a, h') /\
    instance_of AnswerSubmitLearnerAction h' a = true /\
    reads h' a "actionType" (VStr "AnswerSubmit") /\
    LearnerActionOf AnswerSubmit h' a = true.
Proof.
  split; [reflexivity|].
  apply (@decode_dispatches_on_kind sample_angular AnswerSubmit
           answer_store answer_dict).
  reflexivity.
Defined.

(** C4 at the dictionary of an answer submission, of schema version 3. *)
Lemma decode_preserves_schema_version_witness :
  LearnerActionBackendDict answer_store answer_dict = true /\
  exists (a : value) (h' : heap) (version : value),
    createFromBackendDict (angular := sample_angular) answer_dict answer_store
    = (Ok a, h') /\
    reads answer_store answer_dict "schema_version" version /\
    reads h' a "schemaVersion" version.
Proof.
  split; [reflexivity|].
  apply (@decode_preserves_schema_version sample_angular
           answer_store answer_dict).
  reflexivity.
Defined.

(** C10 at a dictionary with no customization args and schema version -1. *)
Lemma decode_checks_only_action_type_witness :
  createFromBackendDict (angular := sample_angular) bare_dict bare_store
  = (Ok (VRef 1),
     bare_store ++
     [action_object ExplorationQuitLearnerAction (VStr "ExplorationQuit")
        VUndefined (VNum (-1)%float)]).
Proof.
  apply (@decode_checks_only_action_type sample_angular ExplorationQuit
           bare_store 0
           (literal [("action_type", VStr "ExplorationQuit");
                     ("schema_version", VNum (-1)%float)]));
    reflexivity.
Defined.

(** C2 at a dictionary of action type [Bogus]. *)
Lemma decode_rejects_unknown_kind_witness :
  toJson (Angular := sample_angular) bogus_store bogus_dict = Ok bogus_json /\
  createFromBackendDict (angular := sample_angular) bogus_dict bogus_store
  = (Throw (Error (unknown_type_message bogus_json)), bogus_store).
Proof.
  split; [vm_compute; reflexivity|].
  apply (@decode_rejects_unknown_kind sample_angular bogus_store 1
           (literal [("action_type", VStr "Bogus");
                     ("action_customization_args", VRef 0);
                     ("schema_version", VNum 1%float)])).
  - reflexivity.
  - intros K. destruct K; discriminate.
  - vm_compute. reflexivity.
Defined.

(** C7 at the action of [started_store]. *)
Lemma toBackendDict_total_witness :
  LearnerAction started_store started_action = true /\
  exists (K : LearnerActionType) (args version : value) (h' : heap),
    reads started_store started_action "actionType" (VStr (enum_value K)) /\
    reads started_store started_action "actionCustomizationArgs" args /\
    reads started_store started_action "schemaVersion" version /\
    h' = started_store ++ [dict_object (VStr (enum_value K)) args version] /\
    toBackendDict started_action started_store = (Ok (VRef 3), h') /\
    ActionCustomizationArgs K h' args = true /\
    LearnerActionBackendDictBase K h' (VRef 3) = true.
Proof.
  split; [reflexivity|].
  apply (toBackendDict_total started_store started_action).
  reflexivity.
Defined.

(** C5 as stated fails in both directions. In [started_store] the field
    [state_name] of the action's payload is the object
    [{value: "Introduction"}] at location 0, and the dictionary of
    [toBackendDict] has that same object under [state_name], not a wrapper
    around it. In [answer_store] the dictionary has [{value: "S1"}] under
    [state_name], and the decoded action has that object, not ["S1"], as
    the [state_name] of its payload. *)
Lemma codec_does_not_wrap :
  ~ (forall (h : heap) (l p : loc) (o op : object) (k : string)
            (v d : value) (h' : heap),
        h !! l = Some o ->
        get_field (props o) "actionCustomizationArgs" = VRef p ->
        h !! p = Some op ->
        assoc k (props op) = Some v ->
        toBackendDict (VRef l) h = (Ok d, h') ->
        exists args w : value,
          reads h' d "action_customization_args" args /\
          reads h' args k w /\
          reads h' w "value" v) /\
  ~ (forall (angular : Angular) (K : LearnerActionType) (h : heap)
            (l p : loc) (o op : object) (k : string) (w v a : value)
            (h' : heap),
        h !! l = Some o ->
        get_field (props o) "action_type" = VStr (enum_value K) ->
        get_field (props o) "action_customization_args" = VRef p ->
        h !! p = Some op ->
        assoc k (props op) = Some w ->
        reads h w "value" v ->
        createFromBackendDict (VRef l) h = (Ok a, h') ->
        exists payload : value,
          reads h' a "actionCustomizationArgs" payload /\
          reads h' payload k v).
Proof.
  split.
  - intros C.
    destruct (C started_store 2 1 _ _ "state_name" (VRef 0) _ _
                eq_refl eq_refl eq_refl eq_refl eq_refl)
      as (args & w & R1 & R2 & R3).
    unfold reads in *. vm_compute in R1. injection R1 as <-.
    vm_compute in R2. injection R2 as <-.
    vm_compute in R3. discriminate.
  - intros C.
    destruct (C sample_angular AnswerSubmit answer_store 7 6 _ _
                "state_name" (VRef 0) (VStr "S1") _ _
                eq_refl eq_refl eq_refl eq_refl eq_refl eq_refl eq_refl)
      as (payload & R1 & R2).
    unfold reads in *. vm_compute in R1. injection R1 as <-.
    vm_compute in R2. discriminate.
Qed.

(** C5, as the code has it, at [started_store] and [answer_store]. *)
Lemma codec_passes_payload_through_witness :
  (exists (d : value) (h' : heap),
      toBackendDict started_action started_store = (Ok d, h') /\
      reads h' d "action_customization_args" start_payload /\
      preserved started_store h') /\
  (exists (a : value) (h' : heap),
      createFromBackendDict (angular := sample_angular)
        answer_dict answer_store = (Ok a, h') /\
      reads h' a "actionCustomizationArgs" (VRef 6) /\
      preserved answer_store h') /\
  (ExplorationStartCustomizationArgs start_store start_payload = true /\
   exists (a : value) (h' : heap),
     createNew (constants := constants_v1) ExplorationStart start_payload
       start_store = (Ok a, h') /\
     reads h' a "actionCustomizationArgs" start_payload /\
     ActionCustomizationArgs ExplorationStart h' start_payload = true).
Proof.
  pose proof (@codec_passes_payload_through constants_v1 sample_angular)
    as (Enc & Dec & New).
  split; [|split; [|split]].
  - apply (Enc started_store 2
             {| cls := ExplorationStartLearnerAction;
                props := [("actionType", VStr "ExplorationStart");
                          ("actionCustomizationArgs", VRef 1);
                          ("schemaVersion", VNum 1%float)] |}).
    reflexivity.
  - apply (Dec AnswerSubmit answer_store 7
             (literal [("action_type", VStr "AnswerSubmit");
                       ("action_customization_args", VRef 6);
                       ("schema_version", VNum 3%float)]));
      reflexivity.
  - reflexivity.
  - apply (New ExplorationStart start_payload start_store). reflexivity.
Defined.

(** C8 as stated fails: the caller may assign [schemaVersion]. In
    [started_store] the action at location 2 has schema version 1; after
    the assignment [action.schemaVersion = 7], which type-checks, it has
    schema version 7. *)
Lemma schemaVersion_is_assignable :
  ~ (forall (a : loc) (h h' : heap) (x : value),
        caller_write a h h' ->
        reads h (VRef a) "schemaVersion" x ->
        reads h' (VRef a) "schemaVersion" x).
Proof.
  intros C.
  assert (W : caller_write 2 started_store
                (<[2 := {| cls := ExplorationStartLearnerAction;
                           props := [("actionType", VStr "ExplorationStart");
                                     ("actionCustomizationArgs", VRef 1);
                                     ("schemaVersion", VNum 7%float)] |}]>
                   started_store)).
  { apply (write_field 2 started_store "schemaVersion" (VNum 7%float));
      reflexivity. }
  specialize (C 2 _ _ (VNum 1%float) W eq_refl).
  unfold reads in C. vm_compute in C. discriminate.
Qed.

(** C8, as the code has it, at the action of [started_store]. *)
Lemma only_actionType_is_readonly_witness :
  (exists h' o',
      rtc (caller_write 2) started_store h' /\
      h' !! 2 = Some o' /\ cls o' = ExplorationStartLearnerAction /\
      get_field (props o') "actionType" = VStr "ExplorationStart" /\
      get_field (props o') "schemaVersion" = VNum 7%float) /\
  (exists h',
      caller_write 2 started_store h' /\
      reads h' (VRef 2) "actionCustomizationArgs" VNull) /\
  (exists h',
      caller_write 2 started_store h' /\
      h' !! 2 = started_store !! 2 /\
      (p' ← get (VRef 2) "actionCustomizationArgs"; get p' "state_name") h'
      = (Ok (VStr "Credits"), h')).
Proof.
  pose proof only_actionType_is_readonly as (Tag & Assign & Payload).
  split; [|split].
  - destruct (Assign 2 started_store
                {| cls := ExplorationStartLearnerAction;
                   props := [("actionType", VStr "ExplorationStart");
                             ("actionCustomizationArgs", VRef 1);
                             ("schemaVersion", VNum 1%float)] |}
                "schemaVersion" (VNum 7%float) eq_refl (or_intror eq_refl))
      as (h' & W & R).
    destruct (Tag 2 started_store h' _ (rtc_once _ _ W) eq_refl)
      as (o' & E' & C' & T').
    exists h', o'. simpl in C', T'.
    unfold reads in R. rewrite (get_ref _ _ _ _ E') in R.
    injection R as R.
    repeat split; try assumption. now apply rtc_once.
  - apply (Assign 2 started_store
             {| cls := ExplorationStartLearnerAction;
                props := [("actionType", VStr "ExplorationStart");
                          ("actionCustomizationArgs", VRef 1);
                          ("schemaVersion", VNum 1%float)] |}
             "actionCustomizationArgs" VNull eq_refl (or_introl eq_refl)).
  - apply (Payload 2 1 started_store
             {| cls := ExplorationStartLearnerAction;
                props := [("actionType", VStr "ExplorationStart");
                          ("actionCustomizationArgs", VRef 1);
                          ("schemaVersion", VNum 1%float)] |}
             (literal [("state_name", VRef 0)])
             "state_name" (VStr "Credits") eq_refl eq_refl).
    + discriminate.
    + reflexivity.
Defined.

(** * Further properties of the module *)

Section Coverage.
Context {constants : StatisticsDomainConstants} {angular : Angular}.

(** ** When [createFromBackendDict] returns *)

(** X1. [createFromBackendDict] returns exactly when its argument is an
    object whose [action_type] is one of the three known types, and then
    the result is a new instance of the class for that type built from the
    [action_type], [action_customization_args] and [schema_version] of the
    object; on every other argument it throws. *)
Theorem decode_returns_iff_known
    (d : value) (h : heap) (a : value) (h' : heap) :
  createFromBackendDict d h = (Ok a, h') <->
  exists (l : loc) (o : object) (K : LearnerActionType),
    d = VRef l /\ h !! l = Some o /\
    get_field (props o) "action_type" = VStr (enum_value K) /\
    a = VRef (length h) /\
    h' = h ++ [action_object (class_of K) (VStr (enum_value K))
                 (get_field (props o) "action_customization_args")
                 (get_field (props o) "schema_version")].
Proof.
  split.
  - intros R.
    destruct (createFromBackendDict_returns_inv _ _ _ _ R)
      as (l & o & K & -> & E & T).
    rewrite (createFromBackendDict_known K _ _ _ E T) in R.
    injection R as <- <-. exists l, o, K. repeat split; assumption.
  - intros (l & o & K & -> & E & T & -> & ->).
    now apply createFromBackendDict_known.
Qed.

(** X2. An argument that is not an object: on [undefined] and [null] the
    read of [action_type] throws a [TypeError] before the [switch] and
    before any serialization; a boolean, a number or a string has no
    [action_type], so it reaches the [default] branch and is reported like
    a dictionary of an unknown type, even a string that spells a known
    type. *)
Theorem decode_of_non_object (d : value) (h : heap) :
  (d = VUndefined \/ d = VNull ->
   exists msg, createFromBackendDict d h = (Throw (TypeError msg), h)) /\
  ((exists b, d = VBool b) \/ (exists n, d = VNum n) \/ (exists s, d = VStr s) ->
   createFromBackendDict d h
   = match toJson h d with
     | Ok json => (Throw (Error (unknown_type_message json)), h)
     | Throw e => (Throw e, h)
     end).
Proof.
  split.
  - intros [-> | ->]; eexists; reflexivity.
  - intros [[b ->] | [[n ->] | [s ->]]];
      apply (createFromBackendDict_default _ _ VUndefined);
      solve [reflexivity | discriminate].
Qed.

(** ** Decoding, then encoding *)

(** X3. Encoding a decoded dictionary gives a new object literal with
    exactly the three properties [action_type], [action_customization_args]
    and [schema_version], holding what the dictionary held under them
    ([undefined] for a missing one); other properties of the dictionary are
    not carried over, and the dictionary itself is untouched. A dictionary
    that has exactly the three properties gets back an object of the same
    content. *)
Theorem encode_after_decode
    (K : LearnerActionType) (h : heap) (l : loc) (o : object) :
  h !! l = Some o ->
  get_field (props o) "action_type" = VStr (enum_value K) ->
  exists (ld : loc) (h2 : heap),
    (a ← createFromBackendDict (VRef l); toBackendDict a) h
    = (Ok (VRef ld), h2) /\
    h2 !! ld = Some (dict_object (VStr (enum_value K))
                       (get_field (props o) "action_customization_args")
                       (get_field (props o) "schema_version")) /\
    h2 !! l = Some o /\
    ld <> l /\
    (forall args version,
        o = dict_object (VStr (enum_value K)) args version ->
        h2 !! ld = Some o).
Proof.
  intros E T.
  pose proof (createFromBackendDict_known K _ _ _ E T) as E1.
  match type of E1 with _ = (_, ?s) => set (h1 := s) in * end.
  assert (E2 : toBackendDict (VRef (length h)) h1
               = (Ok (VRef (length h1)),
                  h1 ++ [dict_object (VStr (enum_value K))
                           (get_field (props o) "action_customization_args")
                           (get_field (props o) "schema_version")]))
    by (erewrite toBackendDict_ref by apply lookup_alloc; reflexivity).
  exists (length h1). eexists. split; [|split; [|split; [|split]]].
  - erewrite bind_ok by exact E1. exact E2.
  - apply lookup_alloc.
  - do 2 apply preserved_alloc. exact E.
  - apply lookup_lt_Some in E. subst h1. rewrite length_app. simpl. lia.
  - intros args version ->. rewrite lookup_alloc. reflexivity.
Qed.

(** ** The types of what the factory methods return *)

(** X4. Given a payload of the shape declared for its action type, a
    factory method returns a well-typed action: an instance of the class
    for the type, with the tag of the type, the payload of the declared
    shape and a number as schema version. *)
Theorem factory_returns_typed_action
    (K : LearnerActionType) (P : value) (h : heap) :
  ActionCustomizationArgs K h P = true ->
  exists (a : value) (h' : heap),
    createNew K P h = (Ok a, h') /\
    LearnerActionOf K h' a = true /\
    LearnerAction h' a = true.
Proof.
  intros A. do 2 eexists. split; [apply createNew_alloc|].
  pose proof (action_object_typed K h P
                (VNum LEARNER_ACTION_SCHEMA_LATEST_VERSION) A eq_refl) as Ty.
  split; [exact Ty|].
  unfold LearnerAction. destruct K; rewrite Ty;
    repeat (rewrite ?orb_true_r, ?orb_true_l); reflexivity.
Qed.

(** ** Sharing and copying *)

Lemma lookup_alloc_insert_ne (h : heap) (o o' : object) (p : loc) :
  p < length h -> (<[p := o']> (h ++ [o])) !! length h = Some o.
Proof.
  intros L. rewrite list_lookup_insert_ne by lia. apply lookup_alloc.
Qed.

Lemma get_path h l o k v k' :
  h !! l = Some o ->
  get_field (props o) k = v ->
  (args ← get (VRef l) k; get args k') h = get v k' h.
Proof. intros E <-. now erewrite bind_ok by (apply get_ref; exact E). Qed.

Lemma get_written h p c ps k x :
  h !! p = Some {| cls := c; props := set_field k x ps |} ->
  get (VRef p) k h = (Ok x, h).
Proof.
  intros E. rewrite (get_ref _ _ _ _ E). unfold get_field. simpl.
  now rewrite assoc_set_field_eq.
Qed.

(** X5. A factory method keeps the payload it is given by reference and
    makes no copy of it: a property the caller writes into the payload
    object after the action is created is read through the action, and
    through the dictionary [toBackendDict] then returns. *)
Theorem factory_shares_payload
    (K : LearnerActionType) (h : heap) (p : loc) (op : object)
    (k : string) (x : value) :
  h !! p = Some op ->
  exists (a d : value) (h' : heap),
    (a ← createNew K (VRef p);
     _ ← set (VRef p) k x;
     d ← toBackendDict a;
     mret (a, d)) h = (Ok (a, d), h') /\
    (args ← get a "actionCustomizationArgs"; get args k) h' = (Ok x, h') /\
    (args ← get d "action_customization_args"; get args k) h' = (Ok x, h').
Proof.
  intros Ep. pose proof (lookup_lt_Some _ _ _ Ep) as Lp.
  set (act := action_object (class_of K) (VStr (enum_value K)) (VRef p)
                (VNum LEARNER_ACTION_SCHEMA_LATEST_VERSION)).
  set (op' := {| cls := cls op; props := set_field k x (props op) |}).
  set (h2 := <[p := op']> (h ++ [act])).
  set (dict := dict_object (VStr (enum_value K)) (VRef p)
                 (VNum LEARNER_ACTION_SCHEMA_LATEST_VERSION)).
  assert (Ea : h2 !! length h = Some act)
    by (now apply lookup_alloc_insert_ne).
  assert (Ep2 : h2 !! p = Some op').
  { apply list_lookup_insert_eq. rewrite length_app. lia. }
  assert (L2 : length h2 = S (length h)).
  { unfold h2. rewrite length_insert, length_app. simpl. lia. }
  exists (VRef (length h)), (VRef (length h2)), (h2 ++ [dict]).
  split; [|split].
  - erewrite bind_ok by apply createNew_alloc.
    erewrite bind_ok
      by (apply set_ref; apply (preserved_alloc h act); exact Ep).
    erewrite bind_ok by (apply toBackendDict_ref; exact Ea).
    reflexivity.
  - rewrite (get_path _ _ act _ (VRef p))
      by (try apply preserved_alloc; done).
    eapply get_written. apply preserved_alloc. exact Ep2.
  - rewrite (get_path _ _ dict _ (VRef p)) by (try apply lookup_alloc; done).
    eapply get_written. apply preserved_alloc. exact Ep2.
Qed.

(** X6. [createFromBackendDict] copies the three values of the dictionary
    into the action and shares the customization args object with it: a
    later write to the dictionary's [schema_version] leaves the action's
    [schemaVersion] as decoded, while a later write into the customization
    args object is read through the action. *)
Theorem decode_copies_fields_and_shares_payload
    (K : LearnerActionType) (h : heap) (l p : loc) (o op : object)
    (k : string) (x y : value) :
  h !! l = Some o ->
  get_field (props o) "action_type" = VStr (enum_value K) ->
  get_field (props o) "action_customization_args" = VRef p ->
  h !! p = Some op ->
  p <> l ->
  exists (a : value) (h' : heap),
    (a ← createFromBackendDict (VRef l);
     _ ← set (VRef p) k x;
     _ ← set (VRef l) "schema_version" y;
     mret a) h = (Ok a, h') /\
    (args ← get a "actionCustomizationArgs"; get args k) h' = (Ok x, h') /\
    reads h' a "schemaVersion" (get_field (props o) "schema_version") /\
    reads h' (VRef l) "schema_version" y.
Proof.
  intros E T P Ep N.
  pose proof (lookup_lt_Some _ _ _ Ep) as Lp.
  pose proof (lookup_lt_Some _ _ _ E) as Ll.
  set (act := action_object (class_of K) (VStr (enum_value K)) (VRef p)
                (get_field (props o) "schema_version")).
  set (op' := {| cls := cls op; props := set_field k x (props op) |}).
  set (o' := {| cls := cls o;
                props := set_field "schema_version" y (props o) |}).
  set (h1 := h ++ [act]).
  set (h2 := <[p := op']> h1).
  set (h3 := <[l := o']> h2).
  assert (E1 : createFromBackendDict (VRef l) h = (Ok (VRef (length h)), h1))
    by (rewrite (createFromBackendDict_known K _ _ _ E T), P; reflexivity).
  assert (El2 : h2 !! l = Some o).
  { unfold h2. rewrite list_lookup_insert_ne by exact N.
    now apply preserved_alloc. }
  assert (Ea3 : h3 !! length h = Some act).
  { unfold h3, h2. rewrite !list_lookup_insert_ne by lia. apply lookup_alloc. }
  assert (Ep3 : h3 !! p = Some op').
  { unfold h3. rewrite list_lookup_insert_ne by congruence.
    apply list_lookup_insert_eq. unfold h1. rewrite length_app. lia. }
  assert (El3 : h3 !! l = Some o').
  { apply list_lookup_insert_eq. unfold h2, h1.
    rewrite length_insert, length_app. lia. }
  exists (VRef (length h)), h3. split; [|split; [|split]].
  - erewrite bind_ok by exact E1.
    erewrite bind_ok by (apply set_ref; apply (preserved_alloc h act); exact Ep).
    erewrite bind_ok by (apply set_ref; exact El2).
    reflexivity.
  - rewrite (get_path _ _ act _ (VRef p)) by done.
    eapply get_written. exact Ep3.
  - unfold reads. erewrite get_ref by exact Ea3. reflexivity.
  - eapply get_written. exact El3.
Qed.

Lemma get_field_set_eq k x ps : get_field (set_field k x ps) k = x.
Proof. unfold get_field. now rewrite assoc_set_field_eq. Qed.

Lemma get_field_set_ne k k' x ps :
  k <> k' -> get_field (set_field k x ps) k' = get_field ps k'.
Proof. intros N. unfold get_field. now rewrite assoc_set_field_ne. Qed.

Lemma reads_dict h t args version :
  reads (h ++ [dict_object t args version]) (VRef (length h)) "action_type" t /\
  reads (h ++ [dict_object t args version]) (VRef (length h))
    "action_customization_args" args /\
  reads (h ++ [dict_object t args version]) (VRef (length h))
    "schema_version" version.
Proof.
  unfold reads. repeat split;
    erewrite get_ref by apply lookup_alloc; reflexivity.
Qed.

Lemma toBackendDict_after_set h a o k x :
  h !! a = Some o ->
  (_ ← set (VRef a) k x; toBackendDict (VRef a)) h
  = (Ok (VRef (length (<[a := {| cls := cls o;
                                 props := set_field k x (props o) |}]> h))),
     <[a := {| cls := cls o; props := set_field k x (props o) |}]> h ++
     [dict_object (get_field (set_field k x (props o)) "actionType")
        (get_field (set_field k x (props o)) "actionCustomizationArgs")
        (get_field (set_field k x (props o)) "schemaVersion")]).
Proof.
  intros E. erewrite bind_ok by (apply set_ref; exact E).
  erewrite toBackendDict_ref
    by (apply list_lookup_insert_eq; now apply lookup_lt_Some in E).
  reflexivity.
Qed.

(** X7. [toBackendDict] reads the fields of the action as they are when it
    is called: after the caller assigns [schemaVersion] or
    [actionCustomizationArgs], the dictionary carries the assigned value
    under [schema_version] or [action_customization_args], and the other
    two properties as they were. *)
Theorem encode_reads_current_fields
    (h : heap) (a : loc) (o : object) (x : value) :
  h !! a = Some o ->
  (exists (d : value) (h' : heap),
      (_ ← set (VRef a) "schemaVersion" x; toBackendDict (VRef a)) h
      = (Ok d, h') /\
      reads h' d "action_type" (get_field (props o) "actionType") /\
      reads h' d "action_customization_args"
        (get_field (props o) "actionCustomizationArgs") /\
      reads h' d "schema_version" x) /\
  (exists (d : value) (h' : heap),
      (_ ← set (VRef a) "actionCustomizationArgs" x; toBackendDict (VRef a)) h
      = (Ok d, h') /\
      reads h' d "action_type" (get_field (props o) "actionType") /\
      reads h' d "action_customization_args" x /\
      reads h' d "schema_version" (get_field (props o) "schemaVersion")).
Proof.
  intros E. split.
  - pose proof (toBackendDict_after_set h a o "schemaVersion" x E) as S.
    rewrite get_field_set_eq, !get_field_set_ne in S by discriminate.
    do 2 eexists. split; [exact S|]. apply reads_dict.
  - pose proof (toBackendDict_after_set h a o "actionCustomizationArgs" x E)
      as S.
    rewrite get_field_set_eq, !get_field_set_ne in S by discriminate.
    do 2 eexists. split; [exact S|]. apply reads_dict.
Qed.

(** X8. The dictionary [toBackendDict] returns is an object of its own: a
    later write to any property of the action leaves the dictionary as it
    was returned, and a write to any property of the dictionary leaves the
    action as it was. *)
Theorem dictionary_is_a_snapshot
    (h : heap) (a : loc) (o : object) (k : string) (x : value) :
  h !! a = Some o ->
  (exists (ld : loc) (h' : heap),
      (d ← toBackendDict (VRef a); _ ← set (VRef a) k x; mret d) h
      = (Ok (VRef ld), h') /\
      h' !! ld = Some (dict_object (get_field (props o) "actionType")
                         (get_field (props o) "actionCustomizationArgs")
                         (get_field (props o) "schemaVersion"))) /\
  (exists (ld : loc) (h' : heap),
      (d ← toBackendDict (VRef a); _ ← set d k x; mret d) h
      = (Ok (VRef ld), h') /\
      reads h' (VRef ld) k x /\
      h' !! a = Some o).
Proof.
  intros E. pose proof (lookup_lt_Some _ _ _ E) as L.
  split.
  - do 2 eexists. split.
    + erewrite bind_ok by (apply toBackendDict_ref; exact E).
      erewrite bind_ok by (apply set_ref; apply preserved_alloc; exact E).
      reflexivity.
    + rewrite list_lookup_insert_ne by lia. apply lookup_alloc.
  - do 2 eexists. split; [|split].
    + erewrite bind_ok by (apply toBackendDict_ref; exact E).
      erewrite bind_ok by (apply set_ref; apply lookup_alloc).
      reflexivity.
    + unfold reads. eapply get_written.
      apply list_lookup_insert_eq. rewrite length_app. simpl. lia.
    + rewrite list_lookup_insert_ne by lia. now apply preserved_alloc.
Qed.

(** ** The tag of an action and its class *)

Lemma class_of_inj K K' : class_of K = class_of K' -> K = K'.
Proof. destruct K, K'; simpl; congruence. Qed.

Lemma tag_consistent_alloc (h : heap) (o : object) :
  tag_consistent h ->
  (forall K, cls o = class_of K ->
             get_field (props o) "actionType" = VStr (enum_value K)) ->
  tag_consistent (h ++ [o]).
Proof.
  intros I O l o' K E C. apply lookup_app_Some in E as [E | [_ E]].
  - now apply (I l).
  - destruct (l - length h) as [|n]; simpl in E; [|discriminate].
    injection E as <-. now apply O.
Qed.

Lemma toBackendDict_store this h :
  (exists e, toBackendDict this h = (Throw e, h)) \/
  (exists t args version,
      toBackendDict this h
      = (Ok (VRef (length h)), h ++ [dict_object t args version])).
Proof.
  destruct this as [| | b | n | s | l];
    try (left; eexists; reflexivity);
    try (right; do 3 eexists; reflexivity).
  destruct (h !! l) as [o|] eqn:E.
  - right. do 3 eexists. apply toBackendDict_ref. exact E.
  - left. eexists. unfold toBackendDict. erewrite bind_throw; [reflexivity|].
    unfold get. now rewrite E.
Qed.

(** X9. The operations of the module keep every action object labelled
    with the tag of its class: if every instance of an action class in the
    store has the tag of that class as [actionType], the same holds of the
    store after a factory method, after [toBackendDict] and after
    [createFromBackendDict], whatever the argument and whether the call
    returns or throws. *)
Theorem operations_keep_tags (h : heap) :
  tag_consistent h ->
  (forall K P r h', createNew K P h = (r, h') -> tag_consistent h') /\
  (forall this r h', toBackendDict this h = (r, h') -> tag_consistent h') /\
  (forall d r h', createFromBackendDict d h = (r, h') -> tag_consistent h').
Proof.
  intros I. split; [|split].
  - intros K P r h' R. rewrite createNew_alloc in R. injection R as _ <-.
    apply tag_consistent_alloc; [exact I|].
    intros K' C. apply class_of_inj in C. now subst.
  - intros this r h' R.
    destruct (toBackendDict_store this h) as [[e S] | (t & args & v & S)];
      rewrite S in R; injection R as _ <-; [exact I|].
    apply tag_consistent_alloc; [exact I|].
    intros K C. destruct K; discriminate.
  - intros d r h' R. destruct r as [a | e].
    + destruct (createFromBackendDict_returns_inv _ _ _ _ R)
        as (l & o & K & -> & E & T).
      rewrite (createFromBackendDict_known K _ _ _ E T) in R.
      injection R as _ <-.
      apply tag_consistent_alloc; [exact I|].
      intros K' C. apply class_of_inj in C. now subst.
    + pose proof (createFromBackendDict_repeatable d h) as Rep.
      rewrite R in Rep. now subst.
Qed.

End Coverage.

(** * The further properties at concrete stores *)

(** X1 at the dictionary of an answer submission, from the call that
    returns. *)
Lemma decode_returns_iff_known_witness :
  exists (l : loc) (o : object) (K : LearnerActionType),
    answer_dict = VRef l /\ answer_store !! l = Some o /\
    get_field (props o) "action_type" = VStr (enum_value K) /\
    VRef 8 = VRef (length answer_store) /\
    answer_store ++
    [action_object AnswerSubmitLearnerAction (VStr "AnswerSubmit") (VRef 6)
       (VNum 3%float)]
    = answer_store ++
      [action_object (class_of K) (VStr (enum_value K))
         (get_field (props o) "action_customization_args")
         (get_field (props o) "schema_version")].
Proof.
  apply (proj1 (@decode_returns_iff_known sample_angular answer_dict
                  answer_store (VRef 8) _)).
  reflexivity.
Defined.

(** X2 at [null] and at the string ["ExplorationStart"]. *)
Lemma decode_of_non_object_witness :
  (exists msg,
      createFromBackendDict (angular := sample_angular) VNull start_store
      = (Throw (TypeError msg), start_store)) /\
  createFromBackendDict (angular := sample_angular)
    (VStr "ExplorationStart") start_store
  = (Throw (Error (unknown_type_message (quote "ExplorationStart"))),
     start_store).
Proof.
  split.
  - apply (proj1 (@decode_of_non_object sample_angular VNull start_store)).
    right. reflexivity.
  - apply (proj2 (@decode_of_non_object sample_angular
                    (VStr "ExplorationStart") start_store)).
    right. right. exists "ExplorationStart". reflexivity.
Defined.

(** X3 at the dictionary of an answer submission, which has exactly the
    three properties. *)
Lemma encode_after_decode_witness :
  exists (ld : loc) (h2 : heap),
    (a ← createFromBackendDict (angular := sample_angular) answer_dict;
     toBackendDict a) answer_store = (Ok (VRef ld), h2) /\
    h2 !! ld = Some (dict_object (VStr "AnswerSubmit") (VRef 6) (VNum 3%float)) /\
    h2 !! 7 = answer_store !! 7 /\
    ld <> 7 /\
    (forall args version,
        literal [("action_type", VStr "AnswerSubmit");
                 ("action_customization_args", VRef 6);
                 ("schema_version", VNum 3%float)]
        = dict_object (VStr "AnswerSubmit") args version ->
        h2 !! ld = answer_store !! 7).
Proof.
  apply (@encode_after_decode sample_angular AnswerSubmit answer_store 7
           (literal [("action_type", VStr "AnswerSubmit");
                     ("action_customization_args", VRef 6);
                     ("schema_version", VNum 3%float)]));
    reflexivity.
Defined.

(** X4 at the payload of [start_store]. *)
Lemma factory_returns_typed_action_witness :
  ExplorationStartCustomizationArgs start_store start_payload = true /\
  exists (a : value) (h' : heap),
    createNew (constants := constants_v1) ExplorationStart start_payload
      start_store = (Ok a, h') /\
    LearnerActionOf ExplorationStart h' a = true /\
    LearnerAction h' a = true.
Proof.
  split; [reflexivity|].
  apply (@factory_returns_typed_action constants_v1 ExplorationStart
           start_payload start_store).
  reflexivity.
Defined.

(** X5 at the payload of [start_store], with a property [note] written
    after the action is created. *)
Lemma factory_shares_payload_witness :
  exists (a d : value) (h' : heap),
    (a ← createNew (constants := constants_v1) ExplorationStart (VRef 1);
     _ ← set (VRef 1) "note" (VStr "late");
     d ← toBackendDict a;
     mret (a, d)) start_store = (Ok (a, d), h') /\
    (args ← get a "actionCustomizationArgs"; get args "note") h'
    = (Ok (VStr "late"), h') /\
    (args ← get d "action_customization_args"; get args "note") h'
    = (Ok (VStr "late"), h').
Proof.
  apply (@factory_shares_payload constants_v1 ExplorationStart start_store 1
           (literal [("state_name", VRef 0)]) "note" (VStr "late")).
  reflexivity.
Defined.

(** X6 at the dictionary of an answer submission. *)
Lemma decode_copies_fields_and_shares_payload_witness :
  exists (a : value) (h' : heap),
    (a ← createFromBackendDict (angular := sample_angular) answer_dict;
     _ ← set (VRef 6) "feedback" VNull;
     _ ← set answer_dict "schema_version" (VNum 9%float);
     mret a) answer_store = (Ok a, h') /\
    (args ← get a "actionCustomizationArgs"; get args "feedback") h'
    = (Ok VNull, h') /\
    reads h' a "schemaVersion" (VNum 3%float) /\
    reads h' answer_dict "schema_version" (VNum 9%float).
Proof.
  apply (@decode_copies_fields_and_shares_payload sample_angular AnswerSubmit
           answer_store 7 6
           (literal [("action_type", VStr "AnswerSubmit");
                     ("action_customization_args", VRef 6);
                     ("schema_version", VNum 3%float)])
           (literal [("state_name", VRef 0);
                     ("dest_state_name", VRef 1);
                     ("interaction_id", VRef 2);
                     ("submitted_answer", VRef 3);
                     ("feedback", VRef 4);
                     ("time_spent_state_in_msecs", VRef 5)])
           "feedback" VNull (VNum 9%float));
    solve [reflexivity | discriminate].
Defined.

(** X7 at the action of [started_store], with 7 assigned. *)
Lemma encode_reads_current_fields_witness :
  (exists (d : value) (h' : heap),
      (_ ← set started_action "schemaVersion" (VNum 7%float);
       toBackendDict started_action) started_store = (Ok d, h') /\
      reads h' d "action_type" (VStr "ExplorationStart") /\
      reads h' d "action_customization_args" (VRef 1) /\
      reads h' d "schema_version" (VNum 7%float)) /\
  (exists (d : value) (h' : heap),
      (_ ← set started_action "actionCustomizationArgs" (VNum 7%float);
       toBackendDict started_action) started_store = (Ok d, h') /\
      reads h' d "action_type" (VStr "ExplorationStart") /\
      reads h' d "action_customization_args" (VNum 7%float) /\
      reads h' d "schema_version" (VNum 1%float)).
Proof.
  apply (encode_reads_current_fields started_store 2
           {| cls := ExplorationStartLearnerAction;
              props := [("actionType", VStr "ExplorationStart");
                        ("actionCustomizationArgs", VRef 1);
                        ("schemaVersion", VNum 1%float)] |}
           (VNum 7%float)).
  reflexivity.
Defined.

(** X8 at the action of [started_store]. *)
Lemma dictionary_is_a_snapshot_witness :
  (exists (ld : loc) (h' : heap),
      (d ← toBackendDict started_action;
       _ ← set started_action "schemaVersion" (VNum 7%float);
       mret d) started_store = (Ok (VRef ld), h') /\
      h' !! ld = Some (dict_object (VStr "ExplorationStart") (VRef 1)
                         (VNum 1%float))) /\
  (exists (ld : loc) (h' : heap),
      (d ← toBackendDict started_action;
       _ ← set d "schemaVersion" (VNum 7%float);
       mret d) started_store = (Ok (VRef ld), h') /\
      reads h' (VRef ld) "schemaVersion" (VNum 7%float) /\
      h' !! 2 = started_store !! 2).
Proof.
  apply (dictionary_is_a_snapshot started_store 2
           {| cls := ExplorationStartLearnerAction;
              props := [("actionType", VStr "ExplorationStart");
                        ("actionCustomizationArgs", VRef 1);
                        ("schemaVersion", VNum 1%float)] |}
           "schemaVersion" (VNum 7%float)).
  reflexivity.
Defined.

(** X9 at [started_store], whose one action is an exploration start with
    the tag of its class. *)
Lemma operations_keep_tags_witness :
  tag_consistent started_store /\
  (forall K P r h',
      createNew (constants := constants_v1) K P started_store = (r, h') ->
      tag_consistent h') /\
  (forall this r h',
      toBackendDict this started_store = (r, h') -> tag_consistent h') /\
  (forall d r h',
      createFromBackendDict (angular := sample_angular) d started_store
      = (r, h') ->
      tag_consistent h').
Proof.
  assert (I : tag_consistent started_store).
  { intros l o K E C.
    destruct l as [|[|[|l]]]; simpl in E; try discriminate;
      injection E as <-; destruct K; try discriminate; reflexivity. }
  split; [exact I|].
  apply (@operations_keep_tags constants_v1 sample_angular started_store I).
Defined.
